(** * ScanCode packagedcode: the package model and the Composer parser

    A shallow embedding of [src/packagedcode/models.py] (the [Package]
    model, [compare_version], [sort_key]) and of
    [src/packagedcode/phpcomposer.py] ([build_package] and its field
    mappers), with the properties of the specification stated over it.

    Conventions of the embedding:
    - a manifest is the Python value [json.load] returns (Python 2, with
      [object_pairs_hook=OrderedDict]); JSON numbers are modelled as
      integers;
    - text is a [string] whose characters stand for code points below 256;
    - a Python exception is an [exn] carried by [result];
    - a mapping keeps its items in order, as an association list. *)

From Stdlib Require Import List String Ascii ZArith Bool Lia.
Import ListNotations.
Open Scope string_scope.

Set Warnings "-register-all".

(** ** Python values and exceptions *)

Inductive value : Type :=
| VNone
| VBool (b : bool)
| VInt (z : Z)
| VStr (s : string)
| VList (l : list value)
| VDict (d : list (string * value)).

(** The exceptions the modelled code raises; [AttributeError] carries the
    attribute that was looked up, [ValueError] the offending value,
    [KeyError] the missing key. *)
Inductive exn : Type :=
| AttributeError (attr : string)
| TypeError
| ValueError (v : value)
| KeyError (k : string).

Inductive result (A : Type) : Type :=
| Ok (a : A)
| Raise (e : exn).

Arguments Ok {A} a.
Arguments Raise {A} e.

Definition bind {A B : Type} (r : result A) (k : A -> result B) : result B :=
  match r with
  | Ok a => k a
  | Raise e => Raise e
  end.

Notation "x <- c ;; k" := (bind c (fun x => k))
  (at level 61, c at next level, right associativity).

(** Truth value of a Python object ([if value:], [not value]). *)
Definition truthy (v : value) : bool :=
  match v with
  | VNone => false
  | VBool b => b
  | VInt z => negb (Z.eqb z 0)
  | VStr s => negb (String.eqb s "")
  | VList l => match l with [] => false | _ => true end
  | VDict d => match d with [] => false | _ => true end
  end.

(** [a or b] on Python values. *)
Definition py_or (a b : value) : value := if truthy a then a else b.

(** ** Text operations *)

Module Text.

(** Characters [unicode.strip()] removes, in the range below 256. *)
Definition is_space (c : ascii) : bool :=
  let n := nat_of_ascii c in
  (Nat.leb 9 n && Nat.leb n 13) || (Nat.leb 28 n && Nat.leb n 32)
  || Nat.eqb n 133 || Nat.eqb n 160.

Fixpoint mem (c : ascii) (chars : string) : bool :=
  match chars with
  | EmptyString => false
  | String c' rest => Ascii.eqb c c' || mem c rest
  end.

Fixpoint lstrip_by (drop : ascii -> bool) (s : string) : string :=
  match s with
  | EmptyString => EmptyString
  | String c rest => if drop c then lstrip_by drop rest else s
  end.

(** Right strip, by recursion from the end: a character is dropped when
    all that follows it has been dropped and it is itself droppable. *)
Fixpoint rstrip_by (drop : ascii -> bool) (s : string) : string :=
  match s with
  | EmptyString => EmptyString
  | String c rest =>
      match rstrip_by drop rest with
      | EmptyString => if drop c then EmptyString else String c EmptyString
      | kept => String c kept
      end
  end.

Definition strip_by (drop : ascii -> bool) (s : string) : string :=
  rstrip_by drop (lstrip_by drop s).

(** [s.strip()] *)
Definition strip (s : string) : string := strip_by is_space s.

(** [s.strip(chars)] *)
Definition strip_chars (chars s : string) : string :=
  strip_by (fun c => mem c chars) s.

(** [s.startswith(p)] *)
Definition startswith (s p : string) : bool := String.prefix p s.

(** [sub in s] *)
Fixpoint contains (sub s : string) : bool :=
  String.prefix sub s
  || match s with
     | EmptyString => false
     | String _ rest => contains sub rest
     end.

(** [sep.join(parts)] *)
Fixpoint join (sep : string) (parts : list string) : string :=
  match parts with
  | [] => ""
  | [p] => p
  | p :: rest => p ++ sep ++ join sep rest
  end.

(** The part of [s] before the first occurrence of the character [c]
    (the first component of [s.partition(c)]); the whole of [s] when
    [c] does not occur. *)
Fixpoint before (c : ascii) (s : string) : string :=
  match s with
  | EmptyString => EmptyString
  | String c' rest => if Ascii.eqb c' c then EmptyString else String c' (before c rest)
  end.

(** [cmp] on two texts: code point order. *)
Definition cmp (a b : string) : Z :=
  match String.compare a b with
  | Lt => (-1)%Z
  | Eq => 0%Z
  | Gt => 1%Z
  end.

End Text.

(** ** Methods of the builtin types, as the parser calls them *)

(** [d.get(key)] on an [OrderedDict]: the value bound to [key], or [None]. *)
Fixpoint dict_get (d : list (string * value)) (key : string) : value :=
  match d with
  | [] => VNone
  | (k, v) :: rest => if String.eqb k key then v else dict_get rest key
  end.

(** [v.get(key)]: only a mapping has a [get] method. *)
Definition py_get (v : value) (key : string) : result value :=
  match v with
  | VDict d => Ok (dict_get d key)
  | _ => Raise (AttributeError "get")
  end.

(** [v.items()]: only a mapping has an [items] method. *)
Definition py_items (v : value) : result (list (string * value)) :=
  match v with
  | VDict d => Ok d
  | _ => Raise (AttributeError "items")
  end.

(** [v.strip()]: only text has a [strip] method. *)
Definition py_strip (v : value) : result value :=
  match v with
  | VStr s => Ok (VStr (Text.strip s))
  | _ => Raise (AttributeError "strip")
  end.

(** [v.strip(chars)] *)
Definition py_strip_chars (v : value) (chars : string) : result value :=
  match v with
  | VStr s => Ok (VStr (Text.strip_chars chars s))
  | _ => Raise (AttributeError "strip")
  end.

(** [isinstance(v, basestring)] and [isinstance(v, list)] *)
Definition is_basestring (v : value) : bool :=
  match v with VStr _ => true | _ => false end.

Definition is_list (v : value) : bool :=
  match v with VList _ => true | _ => false end.

(** [v == text] for a text literal. *)
Definition eq_text (v : value) (text : string) : bool :=
  match v with VStr s => String.eqb s text | _ => false end.

(** [callee(...)] on a value of the model: none of them is callable. *)
Definition py_call (callee : value) (args : list value) : result value :=
  match callee with
  | VNone | VBool _ | VInt _ | VStr _ | VList _ | VDict _ => Raise TypeError
  end.

(** [v.sortable]: none of the builtin types a model field holds
    (NoneType, bool, int, unicode, list, OrderedDict) has an attribute
    of that name. *)
Definition py_getattr_sortable (v : value) : result value :=
  match v with
  | VNone | VBool _ | VInt _ | VStr _ | VList _ | VDict _ =>
      Raise (AttributeError "sortable")
  end.

(** The builtin [cmp] of Python 2.  Objects of different kinds are ordered
    by kind: [None] first, then numbers, then the other types by type
    name ([OrderedDict] < [list] < [unicode]).  Numbers compare by value,
    texts by code points, lists item by item and then by length.  Two
    mappings are compared by length and then by their items in order,
    which only approximates CPython on mappings of equal length; no
    property below compares mappings. *)
Definition kind_rank (v : value) : Z :=
  match v with
  | VNone => 0
  | VBool _ | VInt _ => 1
  | VDict _ => 2
  | VList _ => 3
  | VStr _ => 4
  end%Z.

Definition sign_of (c : comparison) : Z :=
  match c with Lt => (-1)%Z | Eq => 0%Z | Gt => 1%Z end.

Definition num_of (v : value) : Z :=
  match v with
  | VBool true => 1
  | VInt z => z
  | _ => 0
  end%Z.

Fixpoint py_cmp (x y : value) : Z :=
  match x, y with
  | VStr a, VStr b => Text.cmp a b
  | VList a, VList b =>
      (fix items (a b : list value) : Z :=
         match a, b with
         | [], [] => 0
         | [], _ :: _ => -1
         | _ :: _, [] => 1
         | u :: a', v :: b' =>
             let c := py_cmp u v in
             if Z.eqb c 0 then items a' b' else c
         end) a b
  | VDict a, VDict b =>
      let c := sign_of (Nat.compare (List.length a) (List.length b)) in
      if negb (Z.eqb c 0) then c else
      (fix items (a b : list (string * value)) : Z :=
         match a, b with
         | [], [] => 0
         | [], _ :: _ => -1
         | _ :: _, [] => 1
         | (k, u) :: a', (k', v) :: b' =>
             let c := Text.cmp k k' in
             if negb (Z.eqb c 0) then c else
             let c := py_cmp u v in
             if Z.eqb c 0 then items a' b' else c
         end) a b
  | _, _ =>
      if Z.eqb (kind_rank x) (kind_rank y)
      then sign_of (Z.compare (num_of x) (num_of y))
      else sign_of (Z.compare (kind_rank x) (kind_rank y))
  end%Z.

(** ** The package model ([models.py]) *)

(** Party types and dependency groups. *)
Definition party_person : string := "person".
Definition party_project : string := "project".
Definition party_org : string := "organization".
Definition PARTY_TYPES : list string := [party_person; party_project; party_org].

Definition dep_runtime : string := "runtime".
Definition dep_dev : string := "development".
Definition dep_test : string := "test".
Definition dep_build : string := "build".
Definition dep_optional : string := "optional".
Definition dep_bundled : string := "bundled".
Definition dep_ci : string := "continuous integration".
Definition DEPENDENCY_GROUPS : list string :=
  [dep_runtime; dep_dev; dep_optional; dep_test; dep_build; dep_ci; dep_bundled].

(** [Package.VCS_CHOICES] *)
Definition VCS_CHOICES : list string := ["git"; "svn"; "hg"; "bzr"; "cvs"].

(** A party, with the keyword arguments [phpcomposer.py] builds it from
    ([type], [name], [role], [email], [url]); an argument that is not
    given is [None]. *)
Module Party.
Record t : Type := new {
  type : value;
  role : value;
  name : value;
  email : value;
  url : value
}.
End Party.

(** [BasePackage]: the fields a dependency entry is built from. *)
Module BasePackage.
Record t : Type := new {
  type : value;
  name : value;
  version : value;
  payload_type : value
}.
End BasePackage.

(** [Package]: the declared fields in declaration order, the plain
    attribute [location] set by [__init__], and [parties], the party list
    the Composer parser appends to ([phpcomposer.py], [author_mapper] and
    [vendor_mapper]) and the tests serialise
    ([tests/packagedcode/test_nuget.py]). *)
Module Package.

Record t : Type := new {
  type : value;
  name : value;
  version : value;
  payload_type : value;
  primary_language : value;
  packaging : value;
  summary : value;
  description : value;
  size : value;
  release_date : value;
  authors : list Party.t;
  maintainers : list Party.t;
  contributors : list Party.t;
  owners : list Party.t;
  packagers : list Party.t;
  distributors : list Party.t;
  vendors : list Party.t;
  keywords : value;
  keywords_doc_url : value;
  homepage_url : value;
  download_urls : list value;
  download_sha1 : value;
  download_sha256 : value;
  download_md5 : value;
  bug_tracking_url : value;
  support_contacts : list value;
  code_view_url : value;
  vcs_tool : value;
  vcs_repository : value;
  vcs_revision : value;
  copyrights : list value;
  asserted_license : value;
  license_expression : value;
  license_texts : list value;
  notice_text : value;
  dependencies : list (string * list BasePackage.t);
  related_packages : list BasePackage.t;
  location : value;
  parties : list Party.t
}.

(** [package.name = x] *)
Definition set_name (x : value) (p : t) : t :=
  new (type p) x (version p) (payload_type p) (primary_language p)
    (packaging p) (summary p) (description p) (size p) (release_date p)
    (authors p) (maintainers p) (contributors p) (owners p) (packagers p)
    (distributors p) (vendors p) (keywords p) (keywords_doc_url p)
    (homepage_url p) (download_urls p) (download_sha1 p) (download_sha256 p)
    (download_md5 p) (bug_tracking_url p) (support_contacts p)
    (code_view_url p) (vcs_tool p) (vcs_repository p) (vcs_revision p)
    (copyrights p) (asserted_license p) (license_expression p)
    (license_texts p) (notice_text p) (dependencies p) (related_packages p)
    (location p) (parties p).

(** [package.summary = x] *)
Definition set_summary (x : value) (p : t) : t :=
  new (type p) (name p) (version p) (payload_type p) (primary_language p)
    (packaging p) x (description p) (size p) (release_date p) (authors p)
    (maintainers p) (contributors p) (owners p) (packagers p)
    (distributors p) (vendors p) (keywords p) (keywords_doc_url p)
    (homepage_url p) (download_urls p) (download_sha1 p) (download_sha256 p)
    (download_md5 p) (bug_tracking_url p) (support_contacts p)
    (code_view_url p) (vcs_tool p) (vcs_repository p) (vcs_revision p)
    (copyrights p) (asserted_license p) (license_expression p)
    (license_texts p) (notice_text p) (dependencies p) (related_packages p)
    (location p) (parties p).

(** [package.keywords = x] *)
Definition set_keywords (x : value) (p : t) : t :=
  new (type p) (name p) (version p) (payload_type p) (primary_language p)
    (packaging p) (summary p) (description p) (size p) (release_date p)
    (authors p) (maintainers p) (contributors p) (owners p) (packagers p)
    (distributors p) (vendors p) x (keywords_doc_url p) (homepage_url p)
    (download_urls p) (download_sha1 p) (download_sha256 p) (download_md5 p)
    (bug_tracking_url p) (support_contacts p) (code_view_url p) (vcs_tool p)
    (vcs_repository p) (vcs_revision p) (copyrights p) (asserted_license p)
    (license_expression p) (license_texts p) (notice_text p)
    (dependencies p) (related_packages p) (location p) (parties p).

(** [package.version = x] *)
Definition set_version (x : value) (p : t) : t :=
  new (type p) (name p) x (payload_type p) (primary_language p)
    (packaging p) (summary p) (description p) (size p) (release_date p)
    (authors p) (maintainers p) (contributors p) (owners p) (packagers p)
    (distributors p) (vendors p) (keywords p) (keywords_doc_url p)
    (homepage_url p) (download_urls p) (download_sha1 p) (download_sha256 p)
    (download_md5 p) (bug_tracking_url p) (support_contacts p)
    (code_view_url p) (vcs_tool p) (vcs_repository p) (vcs_revision p)
    (copyrights p) (asserted_license p) (license_expression p)
    (license_texts p) (notice_text p) (dependencies p) (related_packages p)
    (location p) (parties p).

(** [package.homepage_url = x] *)
Definition set_homepage_url (x : value) (p : t) : t :=
  new (type p) (name p) (version p) (payload_type p) (primary_language p)
    (packaging p) (summary p) (description p) (size p) (release_date p)
    (authors p) (maintainers p) (contributors p) (owners p) (packagers p)
    (distributors p) (vendors p) (keywords p) (keywords_doc_url p) x
    (download_urls p) (download_sha1 p) (download_sha256 p) (download_md5 p)
    (bug_tracking_url p) (support_contacts p) (code_view_url p) (vcs_tool p)
    (vcs_repository p) (vcs_revision p) (copyrights p) (asserted_license p)
    (license_expression p) (license_texts p) (notice_text p)
    (dependencies p) (related_packages p) (location p) (parties p).

(** [package.asserted_license = x] *)
Definition set_asserted_license (x : value) (p : t) : t :=
  new (type p) (name p) (version p) (payload_type p) (primary_language p)
    (packaging p) (summary p) (description p) (size p) (release_date p)
    (authors p) (maintainers p) (contributors p) (owners p) (packagers p)
    (distributors p) (vendors p) (keywords p) (keywords_doc_url p)
    (homepage_url p) (download_urls p) (download_sha1 p) (download_sha256 p)
    (download_md5 p) (bug_tracking_url p) (support_contacts p)
    (code_view_url p) (vcs_tool p) (vcs_repository p) (vcs_revision p)
    (copyrights p) x (license_expression p) (license_texts p)
    (notice_text p) (dependencies p) (related_packages p) (location p)
    (parties p).

(** [package.bug_tracking_url = x] *)
Definition set_bug_tracking_url (x : value) (p : t) : t :=
  new (type p) (name p) (version p) (payload_type p) (primary_language p)
    (packaging p) (summary p) (description p) (size p) (release_date p)
    (authors p) (maintainers p) (contributors p) (owners p) (packagers p)
    (distributors p) (vendors p) (keywords p) (keywords_doc_url p)
    (homepage_url p) (download_urls p) (download_sha1 p) (download_sha256 p)
    (download_md5 p) x (support_contacts p) (code_view_url p) (vcs_tool p)
    (vcs_repository p) (vcs_revision p) (copyrights p) (asserted_license p)
    (license_expression p) (license_texts p) (notice_text p)
    (dependencies p) (related_packages p) (location p) (parties p).

(** [package.code_view_url = x] *)
Definition set_code_view_url (x : value) (p : t) : t :=
  new (type p) (name p) (version p) (payload_type p) (primary_language p)
    (packaging p) (summary p) (description p) (size p) (release_date p)
    (authors p) (maintainers p) (contributors p) (owners p) (packagers p)
    (distributors p) (vendors p) (keywords p) (keywords_doc_url p)
    (homepage_url p) (download_urls p) (download_sha1 p) (download_sha256 p)
    (download_md5 p) (bug_tracking_url p) (support_contacts p) x
    (vcs_tool p) (vcs_repository p) (vcs_revision p) (copyrights p)
    (asserted_license p) (license_expression p) (license_texts p)
    (notice_text p) (dependencies p) (related_packages p) (location p)
    (parties p).

(** [package.vcs_tool = x] *)
Definition set_vcs_tool (x : value) (p : t) : t :=
  new (type p) (name p) (version p) (payload_type p) (primary_language p)
    (packaging p) (summary p) (description p) (size p) (release_date p)
    (authors p) (maintainers p) (contributors p) (owners p) (packagers p)
    (distributors p) (vendors p) (keywords p) (keywords_doc_url p)
    (homepage_url p) (download_urls p) (download_sha1 p) (download_sha256 p)
    (download_md5 p) (bug_tracking_url p) (support_contacts p)
    (code_view_url p) x (vcs_repository p) (vcs_revision p) (copyrights p)
    (asserted_license p) (license_expression p) (license_texts p)
    (notice_text p) (dependencies p) (related_packages p) (location p)
    (parties p).

(** [package.vcs_repository = x] *)
Definition set_vcs_repository (x : value) (p : t) : t :=
  new (type p) (name p) (version p) (payload_type p) (primary_language p)
    (packaging p) (summary p) (description p) (size p) (release_date p)
    (authors p) (maintainers p) (contributors p) (owners p) (packagers p)
    (distributors p) (vendors p) (keywords p) (keywords_doc_url p)
    (homepage_url p) (download_urls p) (download_sha1 p) (download_sha256 p)
    (download_md5 p) (bug_tracking_url p) (support_contacts p)
    (code_view_url p) (vcs_tool p) x (vcs_revision p) (copyrights p)
    (asserted_license p) (license_expression p) (license_texts p)
    (notice_text p) (dependencies p) (related_packages p) (location p)
    (parties p).

(** [package.dependencies = x] *)
Definition set_dependencies (x : list (string * list BasePackage.t)) (p : t) : t :=
  new (type p) (name p) (version p) (payload_type p) (primary_language p)
    (packaging p) (summary p) (description p) (size p) (release_date p)
    (authors p) (maintainers p) (contributors p) (owners p) (packagers p)
    (distributors p) (vendors p) (keywords p) (keywords_doc_url p)
    (homepage_url p) (download_urls p) (download_sha1 p) (download_sha256 p)
    (download_md5 p) (bug_tracking_url p) (support_contacts p)
    (code_view_url p) (vcs_tool p) (vcs_repository p) (vcs_revision p)
    (copyrights p) (asserted_license p) (license_expression p)
    (license_texts p) (notice_text p) x (related_packages p) (location p)
    (parties p).

(** [package.parties = x] *)
Definition set_parties (x : list Party.t) (p : t) : t :=
  new (type p) (name p) (version p) (payload_type p) (primary_language p)
    (packaging p) (summary p) (description p) (size p) (release_date p)
    (authors p) (maintainers p) (contributors p) (owners p) (packagers p)
    (distributors p) (vendors p) (keywords p) (keywords_doc_url p)
    (homepage_url p) (download_urls p) (download_sha1 p) (download_sha256 p)
    (download_md5 p) (bug_tracking_url p) (support_contacts p)
    (code_view_url p) (vcs_tool p) (vcs_repository p) (vcs_revision p)
    (copyrights p) (asserted_license p) (license_expression p)
    (license_texts p) (notice_text p) (dependencies p) (related_packages p)
    (location p) x.

(** [package.location = x] *)
Definition set_location (x : value) (p : t) : t :=
  new (type p) (name p) (version p) (payload_type p) (primary_language p)
    (packaging p) (summary p) (description p) (size p) (release_date p)
    (authors p) (maintainers p) (contributors p) (owners p) (packagers p)
    (distributors p) (vendors p) (keywords p) (keywords_doc_url p)
    (homepage_url p) (download_urls p) (download_sha1 p) (download_sha256 p)
    (download_md5 p) (bug_tracking_url p) (support_contacts p)
    (code_view_url p) (vcs_tool p) (vcs_repository p) (vcs_revision p)
    (copyrights p) (asserted_license p) (license_expression p)
    (license_texts p) (notice_text p) (dependencies p) (related_packages p)
    x (parties p).


(** [cls()] for [Package] itself: every field at its declared default. *)
Definition empty : t :=
  new VNone VNone VNone VNone VNone VNone VNone VNone VNone VNone
    [] [] [] [] [] [] [] (VList []) VNone VNone
    [] VNone VNone VNone VNone [] VNone
    VNone VNone VNone [] VNone VNone [] VNone
    [] [] VNone [].

(** [Package.recognize(cls, location)] returns [cls()]. *)
Definition recognize (cls_new : t) (location : value) : t := cls_new.

(** The property [component_version]. *)
Definition component_version (self : t) : value := version self.

(** [compare_version(self, other, component_level=False)]:
<<
    x = component_level and self.component_version() or self.version
    y = component_level and other.component_version() or self.version
    return cmp(x, y)
>>
    [component_version] is a property, so [self.component_version()]
    calls the version it returns. *)
Definition compare_version (self other : t) (component_level : bool)
  : result Z :=
  x <- (if component_level
        then r <- py_call (component_version self) [] ;;
             Ok (py_or r (version self))
        else Ok (version self)) ;;
  y <- (if component_level
        then r <- py_call (component_version other) [] ;;
             Ok (py_or r (version self))
        else Ok (version self)) ;;
  Ok (py_cmp x y).

(** [sort_key(self)]:
<<
    return (self.type, self.name, self.version.sortable(self.version),)
>> *)
Definition sort_key (self : t) : result (value * value * value) :=
  let ty := type self in
  let nm := name self in
  sortable <- py_getattr_sortable (version self) ;;
  sv <- py_call sortable [version self] ;;
  Ok (ty, nm, sv).

End Package.

(** ** Control flow shared by the mappers *)

(** [for item in items: body], the body updating the state or raising. *)
Fixpoint for_in {A S : Type} (items : list A) (body : A -> S -> result S)
  (s : S) : result S :=
  match items with
  | [] => Ok s
  | item :: rest => s' <- body item s ;; for_in rest body s'
  end.

(** A generator, as the sequence of the outcomes of its steps: a value it
    yields, or the exception that ends it.  [for_gen] is the [for] loop
    over a generator: each step runs only when the loop asks for it. *)
Fixpoint for_gen {A S : Type} (gen : list (result A))
  (body : A -> S -> result S) (s : S) : result S :=
  match gen with
  | [] => Ok s
  | step :: rest => a <- step ;; s' <- body a s ;; for_gen rest body s'
  end.

(** [v and f(v)] *)
Definition py_and_then (v : value) (f : value -> result value) : result value :=
  if truthy v then f v else Ok v.

(** Lookup in a plain [dict] and [key in d]. *)
Fixpoint assoc {V : Type} (key : string) (d : list (string * V)) : option V :=
  match d with
  | [] => None
  | (k, v) :: rest => if String.eqb k key then Some v else assoc key rest
  end.

(** [d[key].extend(extra)] for a key of [d]. *)
Fixpoint group_extend {V : Type} (key : string) (extra : list V)
  (d : list (string * list V)) : list (string * list V) :=
  match d with
  | [] => []
  | (k, l) :: rest =>
      if String.eqb k key then (k, (l ++ extra)%list) :: rest
      else (k, l) :: group_extend key extra rest
  end.

(** ** The Composer parser ([phpcomposer.py]) *)

Module PHPComposer.

Section Parser.

(** [packagedcode.utils.parse_repo_url], which is not among the sources
    at hand, and the builtin [repr] are taken as given. *)
Variable parse_repo_url : value -> value.
Variable py_repr : value -> string.

(** [PHPComposerPackage()]: the defaults of [Package] with the type and
    the primary language of the subclass. *)
Definition PHPComposerPackage : Package.t :=
  Package.new (VStr "phpcomposer") VNone VNone VNone (VStr "PHP")
    VNone VNone VNone VNone VNone
    [] [] [] [] [] [] [] (VList []) VNone VNone
    [] VNone VNone VNone VNone [] VNone
    VNone VNone VNone [] VNone VNone [] VNone
    [] [] VNone [].

(** [if isinstance(value, basestring): value = value.strip()] *)
Definition strip_if_basestring (v : value) : value :=
  match v with
  | VStr s => VStr (Text.strip s)
  | _ => v
  end.

(** [l.strip()] as a text. *)
Definition str_strip (l : value) : result string :=
  match l with
  | VStr s => Ok (Text.strip s)
  | _ => Raise (AttributeError "strip")
  end.

(** [[l.strip() for l in licenses if l and l.strip()]] *)
Fixpoint license_entries (licenses : list value) : result (list string) :=
  match licenses with
  | [] => Ok []
  | l :: rest =>
      keep <- (if truthy l
               then s <- str_strip l ;; Ok (negb (String.eqb s ""))
               else Ok false) ;;
      if keep
      then s <- str_strip l ;;
           rest' <- license_entries rest ;;
           Ok (s :: rest')
      else license_entries rest
  end.

(** [licensing_mapper(licenses, package)] *)
Definition licensing_mapper (licenses : value) (package : Package.t)
  : result Package.t :=
  if negb (truthy licenses) then Ok package else
  lics <- (if is_list licenses then
             match licenses with
             | VList l =>
                 lics <- license_entries l ;;
                 Ok (VStr (Text.join " OR " lics))
             | _ => Ok licenses
             end
           else if negb (is_basestring licenses) then
             Ok (VStr (py_repr licenses))
           else Ok licenses) ;;
  Ok (Package.set_asserted_license lics package).

(** One step of the generator [parse_person]: the tuple yielded for a
    person. *)
Definition person_tuple (person : value)
  : result (value * value * value * value) :=
  name <- py_get person "name" ;;
  role <- py_get person "role" ;;
  email <- py_get person "email" ;;
  url <- py_get person "homepage" ;;
  name' <- py_and_then name py_strip ;;
  role' <- py_and_then role py_strip ;;
  email' <- py_and_then email (fun v => py_strip_chars v "<> ") ;;
  url' <- py_and_then url (fun v => py_strip_chars v "() ") ;;
  Ok (name', role', email', url').

(** [parse_person(persons)]: one tuple per person of a list; any other
    value raises [ValueError] at the first step. *)
Definition parse_person (persons : value)
  : list (result (value * value * value * value)) :=
  match persons with
  | VList l => map person_tuple l
  | _ => [Raise (ValueError persons)]
  end.

(** [package.parties.append(party)] *)
Definition append_party (party : Party.t) (package : Package.t) : Package.t :=
  Package.set_parties (Package.parties package ++ [party])%list package.

(** [author_mapper(authors_content, package)] *)
Definition author_mapper (authors_content : value) (package : Package.t)
  : result Package.t :=
  for_gen (parse_person authors_content)
    (fun '(name, role, email, url) package =>
       Ok (append_party
             (Party.new (VStr party_person) role name email url) package))
    package.

(** [support_mapper(support, package)] *)
Definition support_mapper (support : value) (package : Package.t)
  : result Package.t :=
  issues <- py_get support "issues" ;;
  let package := Package.set_bug_tracking_url (py_or issues VNone) package in
  source <- py_get support "source" ;;
  let package := Package.set_code_view_url (py_or source VNone) package in
  Ok package.

(** ['/' in name] *)
Definition slash_in (name : value) : result bool :=
  match name with
  | VStr s => Ok (Text.contains "/" s)
  | VList l => Ok (existsb (fun x => eq_text x "/") l)
  | VDict d => Ok (existsb (fun kv => String.eqb (fst kv) "/") d)
  | _ => Raise TypeError
  end.

(** The first component of [name.partition('/')]. *)
Definition partition_head (name : value) : result string :=
  match name with
  | VStr s => Ok (Text.before "/" s)
  | _ => Raise (AttributeError "partition")
  end.

(** [vendor_mapper(package)] *)
Definition vendor_mapper (package : Package.t) : result Package.t :=
  let name := Package.name package in
  if truthy name then
    has_slash <- slash_in name ;;
    if has_slash then
      vendor <- partition_head name ;;
      if negb (String.eqb vendor "")
      then Ok (append_party
                 (Party.new VNone (VStr "vendor") (VStr vendor) VNone VNone)
                 package)
      else Ok package
    else Ok package
  else Ok package.

(** The branch of [repository_mapper] that picks the tool from the url. *)
Definition vcs_tool_of (repo_url : string) : string :=
  if Text.startswith repo_url "svn"
     || Text.contains "subversion.apache.org" repo_url then "svn"
  else if Text.startswith repo_url "hg"
          || Text.contains "mercurial.selenic.com" repo_url then "hg"
  else if Text.startswith repo_url "fossil"
          || Text.contains "fossil-scm.org" repo_url then "fossil"
  else "git".

(** The body of the loop of [repository_mapper] for one [repo].  The
    first test on the url, [repo_url.startswith('svn')], raises for a url
    that is not a text. *)
Definition repository_step (repo : value) (package : Package.t)
  : result Package.t :=
  ty <- py_get repo "type" ;;
  if eq_text ty "vcs" then
    repo_url <- py_get repo "url" ;;
    match repo_url with
    | VStr u =>
        let package := Package.set_vcs_tool (VStr (vcs_tool_of u)) package in
        url <- py_get repo "url" ;;
        Ok (Package.set_vcs_repository (parse_repo_url url) package)
    | _ => Raise (AttributeError "startswith")
    end
  else Ok package.

(** [repository_mapper(repos, package)] *)
Definition repository_mapper (repos : value) (package : Package.t)
  : result Package.t :=
  if negb (truthy repos) then Ok package else
  if is_basestring repos then
    Ok (Package.set_vcs_repository (parse_repo_url repos) package)
  else
    match repos with
    | VList l => for_in l repository_step package
    | _ => Ok package
    end.

(** [dep_types] of [deps_mapper]. *)
Definition dep_types : list (string * string) :=
  [("dependencies", dep_runtime); ("devDependencies", dep_dev)].

(** [models.BasePackage(type='phpcomposer', name=name, version=version)] *)
Definition dependency_of (item : string * value) : BasePackage.t :=
  BasePackage.new (VStr "phpcomposer") (VStr (fst item)) (snd item) VNone.

(** [deps_mapper(deps, package, field_name)] *)
Definition deps_mapper (deps : value) (package : Package.t)
  (field_name : string) : result Package.t :=
  match assoc field_name dep_types with
  | None => Raise (KeyError field_name)
  | Some resolved_type =>
      items <- py_items deps ;;
      let dependencies := map dependency_of items in
      match assoc resolved_type (Package.dependencies package) with
      | Some _ =>
          Ok (Package.set_dependencies
                (group_extend resolved_type dependencies
                   (Package.dependencies package)) package)
      | None =>
          Ok (Package.set_dependencies
                (Package.dependencies package
                 ++ [(resolved_type, dependencies)])%list package)
      end
  end.

Definition dependencies_mapper (deps : value) (package : Package.t) :=
  deps_mapper deps package "dependencies".

Definition dev_dependencies_mapper (deps : value) (package : Package.t) :=
  deps_mapper deps package "devDependencies".

(** The two tables of [build_package]; a target of [plain_fields] is
    given as the assignment [setattr] performs. *)
Definition plain_fields : list (string * (value -> Package.t -> Package.t)) :=
  [ ("name", Package.set_name);
    ("description", Package.set_summary);
    ("keywords", Package.set_keywords);
    ("version", Package.set_version);
    ("homepage", Package.set_homepage_url) ].

Definition field_mappers
  : list (string * (value -> Package.t -> result Package.t)) :=
  [ ("authors", author_mapper);
    ("license", licensing_mapper);
    ("require", dependencies_mapper);
    ("require-dev", dev_dependencies_mapper);
    ("repositories", repository_mapper);
    ("support", support_mapper) ].

(** The body of the first loop of [build_package]. *)
Definition plain_step (package_data : value)
  (field : string * (value -> Package.t -> Package.t))
  (package : Package.t) : result Package.t :=
  let '(source, target) := field in
  value <- py_get package_data source ;;
  if truthy value then
    let value := strip_if_basestring value in
    if truthy value then Ok (target value package) else Ok package
  else Ok package.

(** The body of the second loop of [build_package]. *)
Definition mapper_step (package_data : value)
  (field : string * (value -> Package.t -> result Package.t))
  (package : Package.t) : result Package.t :=
  let '(source, func) := field in
  value <- py_get package_data source ;;
  if truthy value then
    let value := strip_if_basestring value in
    if truthy value then func value package else Ok package
  else Ok package.

(** [build_package(package_data, base_dir=None)] *)
Definition build_package (package_data base_dir : value)
  : result Package.t :=
  let package := Package.set_location base_dir PHPComposerPackage in
  package <- for_in plain_fields (plain_step package_data) package ;;
  package <- for_in field_mappers (mapper_step package_data) package ;;
  vendor_mapper package.

End Parser.

End PHPComposer.


(** What the entry [key] of the manifest [d] hands to its mapper in the
    loops of [build_package]: the value, stripped when it is a text, if
    it is truthy before and after stripping. *)
Definition effective (d : list (string * value)) (key : string)
  : option value :=
  let value := dict_get d key in
  if truthy value then
    let value := PHPComposer.strip_if_basestring value in
    if truthy value then Some value else None
  else None.

(** The package after the first loop of [build_package]. *)
Definition after_plain_fields (d : list (string * value)) (p : Package.t)
  : Package.t :=
  fold_left
    (fun p (field : string * (value -> Package.t -> Package.t)) =>
       match effective d (fst field) with
       | Some v => snd field v p
       | None => p
       end)
    PHPComposer.plain_fields p.

(** One round of the second loop of [build_package]. *)
Definition apply_mapper (d : list (string * value))
  (field : string * (value -> Package.t -> result Package.t))
  (p : Package.t) : result Package.t :=
  match effective d (fst field) with
  | Some v => snd field v p
  | None => Ok p
  end.

(** A step keeps a component of the package when it succeeds. *)
Definition preserves {A : Type} (proj : Package.t -> A)
  (f : Package.t -> result Package.t) : Prop :=
  forall p p', f p = Ok p' -> proj p' = proj p.



(** An author object whose [name], [role], [email] and [homepage] are
    each a text or falsy (absent, [null], empty). *)
Definition text_or_falsy (v : value) : bool :=
  is_basestring v || negb (truthy v).



(** Instances of the two functions the parser is given, to run it on
    sample manifests: the repository url is kept as it is, and [repr] is
    given for the constants. *)
Definition sample_parse_repo_url (v : value) : value := v.

Definition sample_repr (v : value) : string :=
  match v with
  | VNone => "None"
  | VBool true => "True"
  | VBool false => "False"
  | _ => "<object>"
  end.

(** ** Package identifiers ([models.py]) *)

(** The named tuple [PackageId]. *)
Module PackageId.
Record t : Type := new {
  type : value;
  name : value;
  version : value
}.
End PackageId.

(** The property [Package.identifier]. *)
Definition identifier (self : Package.t) : PackageId.t :=
  PackageId.new (Package.type self) (Package.name self) (Package.version self).

(** What [PackageIndentifierType.to_primitive] is given: a [PackageId] or
    any other object. *)
Inductive id_value : Type :=
| IdValue (id : PackageId.t)
| OtherValue (v : value).

(** An item [v or u''] of the sequence handed to [u'|'.join], which
    accepts texts only. *)
Definition join_item (v : value) : result string :=
  match py_or v (VStr "") with
  | VStr s => Ok s
  | _ => Raise TypeError
  end.

(** [PackageIndentifierType.to_primitive(self, value)]; a named tuple of
    three items is truthy. *)
Definition to_primitive (value : id_value) : result id_value :=
  match value with
  | OtherValue v =>
      if negb (truthy v) then Ok value else Raise TypeError
  | IdValue id =>
      a <- join_item (PackageId.type id) ;;
      b <- join_item (PackageId.name id) ;;
      c <- join_item (PackageId.version id) ;;
      Ok (OtherValue (VStr (Text.join "|" [a; b; c])))
  end.



(** [isinstance(v, dict)] *)
Definition is_mapping (v : value) : bool :=
  match v with VDict _ => true | _ => false end.

(** The tools [repository_mapper] stores. *)
Definition composer_vcs_tools : list value :=
  [VStr "svn"; VStr "hg"; VStr "fossil"; VStr "git"].

(** The keys of the two tables of [build_package]. *)
Definition composer_keys : list string :=
  map fst PHPComposer.plain_fields
  ++ ["authors"; "license"; "require"; "require-dev"; "repositories";
      "support"].

(** * Properties *)

(** ** Version comparison and sort key ([models.py]) *)

Lemma text_cmp_refl (s : string) : Text.cmp s s = 0%Z.
Proof.
  unfold Text.cmp.
  pose proof (String.compare_antisym s s) as H.
  destruct (String.compare s s); simpl in H; congruence.
Qed.

(** Without [component_level] both operands of [cmp] are the version of
    [self]: the other package is not read. *)
Lemma compare_version_reads_self_only (p q : Package.t) :
  Package.compare_version p q false
  = Ok (py_cmp (Package.version p) (Package.version p)).
Proof. reflexivity. Qed.

Lemma compare_version_text_is_zero (p q : Package.t) (s : string) :
  Package.version p = VStr s ->
  Package.compare_version p q false = Ok 0%Z.
Proof.
  intros Hv. rewrite compare_version_reads_self_only, Hv.
  simpl. now rewrite text_cmp_refl.
Qed.

(** C3 (defect in the code).  The claim asks for a comparison of the
    version of [p] with the version of [q].  For the packages of the
    docstring, with versions "1" and "2", [cmp] on the two versions is
    negative, yet [compare_version] answers zero: its second operand is
    [self.version] again. *)
Theorem compare_version_ignores_other_version :
  let p := Package.set_version (VStr "1") Package.empty in
  let q := Package.set_version (VStr "2") Package.empty in
  py_cmp (Package.version p) (Package.version q) = (-1)%Z
  /\ Package.compare_version p q false = Ok 0%Z
  /\ Package.compare_version q p false = Ok 0%Z.
Proof. repeat split. Qed.

(** C8 (defect in the code).  [sort_key] looks up [sortable] on the
    version, which no value a version holds provides: it raises for every
    package, also when type, name and version are set. *)
Theorem sort_key_raises (p : Package.t) :
  Package.sort_key p = Raise (AttributeError "sortable").
Proof.
  unfold Package.sort_key.
  destruct (Package.version p); reflexivity.
Qed.

Lemma complete_package_has_no_sort_key :
  Package.sort_key
    (Package.set_version (VStr "1.0")
       (Package.set_name (VStr "widget")
          (Package.recognize PHPComposer.PHPComposerPackage VNone)))
  = Raise (AttributeError "sortable").
Proof. reflexivity. Qed.

(** With [component_level] the method calls the version that the property
    [component_version] returns, which is not callable; in no case does
    the result depend on the other package, and for a version that is a
    text or unset it is zero. *)
Theorem compare_version_never_reads_other (p q q' : Package.t)
  (component_level : bool) :
  Package.compare_version p q component_level
  = Package.compare_version p q' component_level
  /\ Package.compare_version p q true = Raise TypeError
  /\ match Package.version p with
     | VNone | VStr _ => Package.compare_version p q false = Ok 0%Z
     | _ => True
     end.
Proof.
  assert (Hraise : forall o, Package.compare_version p o true = Raise TypeError).
  { intros o. unfold Package.compare_version, Package.component_version.
    destruct (Package.version p); reflexivity. }
  split; [|split].
  - destruct component_level; [now rewrite !Hraise | reflexivity].
  - apply Hraise.
  - destruct (Package.version p) as [| | |s| |] eqn:Hv; try exact I.
    + rewrite compare_version_reads_self_only, Hv. reflexivity.
    + now apply (compare_version_text_is_zero p q s).
Qed.

(** ** Package identifiers *)

Lemma split_at_separator (c : ascii) (a a' r r' : string) :
  Text.mem c a = false -> Text.mem c a' = false ->
  a ++ String c r = a' ++ String c r' -> a = a' /\ r = r'.
Proof.
  revert a'. induction a as [|x a IH]; intros [|x' a'] Ha Ha' H; simpl in *.
  - inversion H. now split.
  - inversion H; subst. rewrite Ascii.eqb_refl in Ha'. discriminate.
  - inversion H; subst. rewrite Ascii.eqb_refl in Ha. discriminate.
  - inversion H; subst.
    apply orb_false_iff in Ha, Ha'.
    destruct (IH a' (proj2 Ha) (proj2 Ha') H2) as [-> ->]. now split.
Qed.

(** The text of an identifier is [type|name|version]; it identifies the
    three components when type and name hold no ['|'], and it does not
    tell an unset version from an empty one. *)
Theorem package_id_text_identifies (t n v t' n' v' : string) :
  Text.mem "|" t = false -> Text.mem "|" n = false ->
  Text.mem "|" t' = false -> Text.mem "|" n' = false ->
  let id t n v := IdValue (PackageId.new (VStr t) (VStr n) v) in
  to_primitive (id t n (VStr v))
  = Ok (OtherValue (VStr (t ++ "|" ++ n ++ "|" ++ v)))
  /\ (to_primitive (id t n (VStr v)) = to_primitive (id t' n' (VStr v')) ->
      t = t' /\ n = n' /\ v = v')
  /\ to_primitive (id t n VNone) = to_primitive (id t n (VStr "")).
Proof.
  intros Ht Hn Ht' Hn' id.
  assert (Hitem : forall s, join_item (VStr s) = Ok s).
  { intros s. unfold join_item, py_or. simpl.
    destruct (s =? "") eqn:E; simpl; [|reflexivity].
    apply String.eqb_eq in E. now subst. }
  assert (Hfmt : forall a b c,
            to_primitive (id a b (VStr c))
            = Ok (OtherValue (VStr (a ++ "|" ++ b ++ "|" ++ c)))).
  { intros a b c. unfold id, to_primitive. simpl PackageId.type.
    simpl PackageId.name. simpl PackageId.version.
    rewrite !Hitem. reflexivity. }
  split; [apply Hfmt|]. split.
  - rewrite !Hfmt. intros H. inversion H as [H'].
    apply (split_at_separator "|" t t') in H'; try assumption.
    destruct H' as [-> H'].
    apply (split_at_separator "|" n n') in H'; try assumption.
    destruct H' as [-> ->]. repeat split.
  - unfold id, to_primitive. simpl. rewrite !Hitem. reflexivity.
Qed.

(** ** Reasoning about [result] and about plain [dict]s *)

Lemma bind_ok {A B : Type} (r : result A) (k : A -> result B) (b : B) :
  bind r k = Ok b -> exists a, r = Ok a /\ k a = Ok b.
Proof. destruct r as [a|e]; simpl; intros H; [eauto | discriminate]. Qed.

Ltac bind_inv H :=
  let a := fresh "p" in
  let Ha := fresh "Hstep" in
  apply bind_ok in H; destruct H as [a [Ha H]].




(** ** The mappers of the Composer parser *)

Section ComposerProperties.

Variable parse_repo_url : value -> value.
Variable py_repr : value -> string.

Local Abbreviation repository_step := (PHPComposer.repository_step parse_repo_url).
Local Abbreviation repository_mapper := (PHPComposer.repository_mapper parse_repo_url).
Local Abbreviation licensing_mapper := (PHPComposer.licensing_mapper py_repr).
Local Abbreviation build_package := (PHPComposer.build_package parse_repo_url py_repr).

(** *** Dependencies *)


(** *** Support *)

(** C10.  On a support object the mapper assigns both fields: the value
    of [issues], respectively [source], when that value is truthy, and
    [None] otherwise, whatever the fields held; putting the two old
    values back gives the package it started from, so no other field
    changed. *)
Theorem support_mapper_assigns_both_urls (support : list (string * value))
  (p : Package.t) :
  exists p',
    PHPComposer.support_mapper (VDict support) p = Ok p'
    /\ Package.bug_tracking_url p'
       = (if truthy (dict_get support "issues")
          then dict_get support "issues" else VNone)
    /\ Package.code_view_url p'
       = (if truthy (dict_get support "source")
          then dict_get support "source" else VNone)
    /\ Package.set_bug_tracking_url (Package.bug_tracking_url p)
         (Package.set_code_view_url (Package.code_view_url p) p') = p.
Proof.
  eexists. split; [reflexivity|].
  repeat split. destruct p; reflexivity.
Qed.

(** *** Repositories *)







(** C7 (defect in the code).  The model declares [vcs_tool] with the
    choices git, svn, hg, bzr and cvs, and the Composer parser stores
    [fossil] for a [vcs] repository whose url starts with [fossil]. *)
Theorem fossil_repository_leaves_vcs_choices :
  exists p,
    build_package
      (VDict [("repositories",
               VList [VDict [("type", VStr "vcs");
                             ("url", VStr "fossil://example.org/repo")]])])
      VNone = Ok p
    /\ Package.vcs_tool p = VStr "fossil"
    /\ ~ In "fossil" VCS_CHOICES.
Proof.
  eexists. split; [reflexivity|]. split; [reflexivity|].
  unfold VCS_CHOICES. simpl. intuition discriminate.
Qed.

(** *** The loops of [build_package] *)

Lemma effective_eq (d : list (string * value)) (key : string) :
  effective d key
  = let v := PHPComposer.strip_if_basestring (dict_get d key) in
    if truthy v then Some v else None.
Proof.
  unfold effective. cbv zeta.
  destruct (dict_get d key) as [| | |s| |]; simpl; try reflexivity.
  - destruct b; reflexivity.
  - destruct (negb (z =? 0)%Z); reflexivity.
  - destruct s; reflexivity.
  - destruct l; reflexivity.
  - destruct d0; reflexivity.
Qed.

Lemma plain_loop_eq (d : list (string * value))
  (fields : list (string * (value -> Package.t -> Package.t)))
  (p : Package.t) :
  for_in fields (PHPComposer.plain_step (VDict d)) p
  = Ok (fold_left
          (fun p (field : string * (value -> Package.t -> Package.t)) =>
             match effective d (fst field) with
             | Some v => snd field v p
             | None => p
             end) fields p).
Proof.
  revert p. induction fields as [|[k target] rest IH]; intros p; simpl;
    [reflexivity|].
  unfold effective. simpl.
  destruct (truthy (dict_get d k)); simpl; [|apply IH].
  destruct (truthy (PHPComposer.strip_if_basestring (dict_get d k))); simpl;
    apply IH.
Qed.

Lemma for_in_ext {I S : Type} (items : list I)
  (f g : I -> S -> result S) (s : S) :
  (forall i s, f i s = g i s) -> for_in items f s = for_in items g s.
Proof.
  intros Hfg. revert s. induction items as [|i rest IH]; intros s; simpl;
    [reflexivity|].
  rewrite Hfg. destruct (g i s); simpl; [apply IH | reflexivity].
Qed.

Lemma mapper_step_eq (d : list (string * value))
  (field : string * (value -> Package.t -> result Package.t))
  (p : Package.t) :
  PHPComposer.mapper_step (VDict d) field p = apply_mapper d field p.
Proof.
  destruct field as [k func].
  unfold PHPComposer.mapper_step, apply_mapper, effective. simpl.
  destruct (truthy (dict_get d k)); [|reflexivity].
  destruct (truthy (PHPComposer.strip_if_basestring (dict_get d k)));
    reflexivity.
Qed.

Lemma mapper_loop_eq (d : list (string * value))
  (fields : list (string * (value -> Package.t -> result Package.t)))
  (p : Package.t) :
  for_in fields (PHPComposer.mapper_step (VDict d)) p
  = for_in fields (apply_mapper d) p.
Proof. apply for_in_ext. apply mapper_step_eq. Qed.

Lemma build_package_eq (d : list (string * value)) (base : value) :
  build_package (VDict d) base
  = (p <- for_in (PHPComposer.field_mappers parse_repo_url py_repr)
            (apply_mapper d)
            (after_plain_fields d
               (Package.set_location base PHPComposer.PHPComposerPackage)) ;;
     PHPComposer.vendor_mapper p).
Proof.
  unfold PHPComposer.build_package.
  rewrite plain_loop_eq. cbn [bind].
  rewrite mapper_loop_eq. reflexivity.
Qed.

(** *** What each mapper leaves alone *)

Lemma for_in_preserves {I A : Type} (proj : Package.t -> A)
  (items : list I) (body : I -> Package.t -> result Package.t) :
  (forall i, preserves proj (body i)) ->
  preserves proj (for_in items body).
Proof.
  intros Hbody. induction items as [|i rest IH]; intros p p' H; simpl in H.
  - now inversion H.
  - bind_inv H. rewrite (IH _ _ H). eapply Hbody; eassumption.
Qed.

Lemma for_gen_preserves {I A : Type} (proj : Package.t -> A)
  (gen : list (result I)) (body : I -> Package.t -> result Package.t) :
  (forall i, preserves proj (body i)) ->
  preserves proj (for_gen gen body).
Proof.
  intros Hbody. induction gen as [|step rest IH]; intros p p' H; simpl in H.
  - now inversion H.
  - bind_inv H. bind_inv H. rewrite (IH _ _ H). eapply Hbody; eassumption.
Qed.

Lemma author_mapper_preserves {A : Type} (proj : Package.t -> A)
  (v : value) :
  (forall x p, proj (Package.set_parties x p) = proj p) ->
  preserves proj (PHPComposer.author_mapper v).
Proof.
  intros Hind. unfold PHPComposer.author_mapper.
  apply for_gen_preserves. intros [[[name role] email] url] p p' H.
  inversion H. apply Hind.
Qed.

Lemma vendor_mapper_preserves {A : Type} (proj : Package.t -> A) :
  (forall x p, proj (Package.set_parties x p) = proj p) ->
  preserves proj PHPComposer.vendor_mapper.
Proof.
  intros Hind p p' H. unfold PHPComposer.vendor_mapper in H.
  destruct (truthy (Package.name p)); [|now inversion H].
  bind_inv H. destruct p0; [|now inversion H].
  bind_inv H. destruct (negb (p0 =? "")); inversion H; [apply Hind | reflexivity].
Qed.

Lemma licensing_mapper_preserves {A : Type} (proj : Package.t -> A)
  (v : value) :
  (forall x p, proj (Package.set_asserted_license x p) = proj p) ->
  preserves proj (licensing_mapper v).
Proof.
  intros Hind p p' H. unfold PHPComposer.licensing_mapper in H.
  destruct (negb (truthy v)); [now inversion H|].
  bind_inv H. inversion H. apply Hind.
Qed.

Lemma deps_mapper_preserves {A : Type} (proj : Package.t -> A)
  (v : value) (field_name : string) :
  (forall x p, proj (Package.set_dependencies x p) = proj p) ->
  preserves proj (fun p => PHPComposer.deps_mapper v p field_name).
Proof.
  intros Hind p p' H. unfold PHPComposer.deps_mapper in H.
  destruct (assoc field_name PHPComposer.dep_types); [|discriminate].
  bind_inv H.
  destruct (assoc s (Package.dependencies p)); inversion H; apply Hind.
Qed.

Lemma repository_mapper_preserves {A : Type} (proj : Package.t -> A)
  (v : value) :
  (forall x p, proj (Package.set_vcs_tool x p) = proj p) ->
  (forall x p, proj (Package.set_vcs_repository x p) = proj p) ->
  preserves proj (repository_mapper v).
Proof.
  intros Htool Hrepo p p' H. unfold PHPComposer.repository_mapper in H.
  destruct (negb (truthy v)); [now inversion H|].
  destruct (is_basestring v); [inversion H; apply Hrepo|].
  destruct v; try (now inversion H).
  revert H. apply for_in_preserves. intros repo q q' H.
  unfold PHPComposer.repository_step in H.
  bind_inv H. destruct (eq_text p0 "vcs"); [|now inversion H].
  bind_inv H. destruct p1; try discriminate.
  bind_inv H. inversion H. rewrite Hrepo. apply Htool.
Qed.

Lemma support_mapper_preserves {A : Type} (proj : Package.t -> A)
  (v : value) :
  (forall x p, proj (Package.set_bug_tracking_url x p) = proj p) ->
  (forall x p, proj (Package.set_code_view_url x p) = proj p) ->
  preserves proj (PHPComposer.support_mapper v).
Proof.
  intros Hbug Hcode p p' H. unfold PHPComposer.support_mapper in H.
  bind_inv H. bind_inv H. inversion H. rewrite Hcode. apply Hbug.
Qed.

Lemma apply_mapper_preserves {A : Type} (proj : Package.t -> A)
  (d : list (string * value)) (key : string)
  (func : value -> Package.t -> result Package.t) :
  (forall v, preserves proj (func v)) ->
  preserves proj (apply_mapper d (key, func)).
Proof.
  intros Hfunc p p' H. unfold apply_mapper in H. simpl in H.
  destruct (effective d key); [eapply Hfunc; eassumption | now inversion H].
Qed.

(** The second loop and the vendor step keep every component that none
    of the mappers assigns. *)
Lemma mappers_preserve {A : Type} (proj : Package.t -> A)
  (d : list (string * value)) :
  (forall x p, proj (Package.set_parties x p) = proj p) ->
  (forall x p, proj (Package.set_asserted_license x p) = proj p) ->
  (forall x p, proj (Package.set_dependencies x p) = proj p) ->
  (forall x p, proj (Package.set_vcs_tool x p) = proj p) ->
  (forall x p, proj (Package.set_vcs_repository x p) = proj p) ->
  (forall x p, proj (Package.set_bug_tracking_url x p) = proj p) ->
  (forall x p, proj (Package.set_code_view_url x p) = proj p) ->
  preserves proj
    (fun p =>
       p' <- for_in (PHPComposer.field_mappers parse_repo_url py_repr)
               (apply_mapper d) p ;;
       PHPComposer.vendor_mapper p').
Proof.
  intros Hparties Hlicense Hdeps Htool Hrepo Hbug Hcode p p' H.
  bind_inv H.
  rewrite (vendor_mapper_preserves proj Hparties _ _ H).
  revert Hstep. unfold PHPComposer.field_mappers. simpl for_in. intros Hstep.
  repeat (let q := fresh "q" in
          let Hq := fresh "Hq" in
          apply bind_ok in Hstep; destruct Hstep as [q [Hq Hstep]]).
  inversion Hstep; subst p0.
  pose proof (apply_mapper_preserves proj d _ _
    (fun v => support_mapper_preserves proj v Hbug Hcode) _ _ Hq4).
  pose proof (apply_mapper_preserves proj d _ _
    (fun v => repository_mapper_preserves proj v Htool Hrepo) _ _ Hq3).
  pose proof (apply_mapper_preserves proj d _ _
    (fun v => deps_mapper_preserves proj v "devDependencies" Hdeps) _ _ Hq2).
  pose proof (apply_mapper_preserves proj d _ _
    (fun v => deps_mapper_preserves proj v "dependencies" Hdeps) _ _ Hq1).
  pose proof (apply_mapper_preserves proj d _ _
    (fun v => licensing_mapper_preserves proj v Hlicense) _ _ Hq0).
  pose proof (apply_mapper_preserves proj d _ _
    (fun v => author_mapper_preserves proj v Hparties) _ _ Hq).
  congruence.
Qed.


(** *** License *)

Lemma license_entries_texts (texts : list string) :
  PHPComposer.license_entries (map VStr texts)
  = Ok (filter (fun s => negb (s =? "")) (map Text.strip texts)).
Proof.
  induction texts as [|s rest IH]; simpl; [reflexivity|].
  destruct (s =? "") eqn:Es; simpl.
  - apply String.eqb_eq in Es. subst s. simpl. exact IH.
  - destruct (Text.strip s =? ""); simpl; rewrite IH; reflexivity.
Qed.

(** In [build_package] the license step starts from a package without
    asserted license, and what it stores is what the package returned
    holds. *)
Lemma build_package_license_step (d : list (string * value)) (base : value)
  (p : Package.t) :
  build_package (VDict d) base = Ok p ->
  exists q q',
    Package.asserted_license q = VNone
    /\ apply_mapper d ("license", licensing_mapper) q = Ok q'
    /\ Package.asserted_license p = Package.asserted_license q'.
Proof.
  rewrite build_package_eq. intros H. bind_inv H.
  pose proof (vendor_mapper_preserves Package.asserted_license
                (fun _ _ => eq_refl) _ _ H) as Hvendor.
  revert Hstep. unfold PHPComposer.field_mappers. simpl for_in. intros Hstep.
  repeat (let q := fresh "q" in
          let Hq := fresh "Hq" in
          apply bind_ok in Hstep; destruct Hstep as [q [Hq Hstep]]).
  inversion Hstep; subst p0.
  pose proof (apply_mapper_preserves Package.asserted_license d _ _
    (fun v => support_mapper_preserves Package.asserted_license v
                (fun _ _ => eq_refl) (fun _ _ => eq_refl)) _ _ Hq4).
  pose proof (apply_mapper_preserves Package.asserted_license d _ _
    (fun v => repository_mapper_preserves Package.asserted_license v
                (fun _ _ => eq_refl) (fun _ _ => eq_refl)) _ _ Hq3).
  pose proof (apply_mapper_preserves Package.asserted_license d _ _
    (fun v => deps_mapper_preserves Package.asserted_license v "devDependencies"
                (fun _ _ => eq_refl)) _ _ Hq2).
  pose proof (apply_mapper_preserves Package.asserted_license d _ _
    (fun v => deps_mapper_preserves Package.asserted_license v "dependencies"
                (fun _ _ => eq_refl)) _ _ Hq1).
  pose proof (apply_mapper_preserves Package.asserted_license d _ _
    (fun v => author_mapper_preserves Package.asserted_license v (fun _ _ => eq_refl)) _ _ Hq)
    as Hauthors.
  exists q, q0. repeat split.
  - rewrite Hauthors. unfold after_plain_fields. simpl.
    destruct (effective d "homepage"), (effective d "version"),
      (effective d "keywords"), (effective d "description"),
      (effective d "name"); reflexivity.
  - exact Hq0.
  - congruence.
Qed.

(** C1, as the parser has it.  [build_package] strips a text before
    the mapper sees it: a [license] text is recorded stripped, and not at
    all when it is blank; a non-empty list is recorded as its stripped
    non-blank entries joined with [" OR "]; any other truthy value is
    recorded as its [repr]; a falsy value leaves the field unset. *)
Theorem license_is_recorded_after_stripping (d : list (string * value))
  (base : value) (p : Package.t) :
  build_package (VDict d) base = Ok p ->
  match dict_get d "license" with
  | VStr s =>
      Package.asserted_license p
      = if Text.strip s =? "" then VNone else VStr (Text.strip s)
  | VList [] => Package.asserted_license p = VNone
  | VList l =>
      exists lics,
        PHPComposer.license_entries l = Ok lics
        /\ Package.asserted_license p = VStr (Text.join " OR " lics)
  | v =>
      Package.asserted_license p
      = if truthy v then VStr (py_repr v) else VNone
  end
  /\ (forall texts,
        dict_get d "license" = VList (map VStr texts) ->
        texts <> [] ->
        Package.asserted_license p
        = VStr (Text.join " OR "
                  (filter (fun s => negb (s =? "")) (map Text.strip texts)))).
Proof.
  intros H.
  destruct (build_package_license_step d base p H) as [q [q' [Hq [Hstep Hp]]]].
  rewrite Hp. clear H Hp.
  unfold apply_mapper in Hstep. simpl in Hstep. rewrite effective_eq in Hstep.
  cbv zeta in Hstep.
  assert (Hlist : forall l lics,
            dict_get d "license" = VList l -> l <> [] ->
            PHPComposer.license_entries l = Ok lics ->
            Package.asserted_license q' = VStr (Text.join " OR " lics)).
  { intros l lics Hd Hl Hlics. rewrite Hd in Hstep.
    destruct l as [|x l]; [congruence|].
    unfold PHPComposer.licensing_mapper in Hstep.
    simpl PHPComposer.strip_if_basestring in Hstep.
    cbn [truthy negb is_list] in Hstep.
    rewrite Hlics in Hstep. simpl in Hstep. now inversion Hstep. }
  split.
  - destruct (dict_get d "license") as [|b|z|s|l|m] eqn:Hd.
    + simpl in Hstep. inversion Hstep; subst. exact Hq.
    + destruct b; simpl in Hstep; inversion Hstep; subst; simpl;
        [reflexivity | exact Hq].
    + simpl in Hstep |- *. destruct (negb (z =? 0)%Z) eqn:Ez.
      * unfold PHPComposer.licensing_mapper in Hstep. simpl in Hstep.
        rewrite Ez in Hstep. simpl in Hstep. now inversion Hstep.
      * inversion Hstep; subst. exact Hq.
    + simpl in Hstep. destruct (Text.strip s =? "") eqn:Es; simpl in Hstep.
      * inversion Hstep; subst. exact Hq.
      * unfold PHPComposer.licensing_mapper in Hstep. simpl in Hstep.
        rewrite Es in Hstep. simpl in Hstep. now inversion Hstep.
    + destruct l as [|x l].
      * simpl in Hstep. inversion Hstep; subst. exact Hq.
      * unfold PHPComposer.licensing_mapper in Hstep.
        simpl PHPComposer.strip_if_basestring in Hstep.
        cbn [truthy negb is_list] in Hstep.
        bind_inv Hstep. bind_inv Hstep0. inversion Hstep0; subst p0.
        exists p1. split; [exact Hstep1|]. now inversion Hstep.
    + destruct m; simpl in Hstep; inversion Hstep; subst; simpl;
        [exact Hq | reflexivity].
  - intros texts Hd Hne. apply (Hlist _ _ Hd).
    + destruct texts; [congruence | discriminate].
    + apply license_entries_texts.
Qed.

(** *** Authors *)








(** *** Dependencies of a parsed manifest *)




(** *** The manifest as a whole *)

(** The second loop alone keeps every component that none of the mappers
    assigns. *)
Lemma mapper_loop_preserves {A : Type} (proj : Package.t -> A)
  (d : list (string * value)) :
  (forall x p, proj (Package.set_parties x p) = proj p) ->
  (forall x p, proj (Package.set_asserted_license x p) = proj p) ->
  (forall x p, proj (Package.set_dependencies x p) = proj p) ->
  (forall x p, proj (Package.set_vcs_tool x p) = proj p) ->
  (forall x p, proj (Package.set_vcs_repository x p) = proj p) ->
  (forall x p, proj (Package.set_bug_tracking_url x p) = proj p) ->
  (forall x p, proj (Package.set_code_view_url x p) = proj p) ->
  preserves proj
    (for_in (PHPComposer.field_mappers parse_repo_url py_repr)
       (apply_mapper d)).
Proof.
  intros Hparties Hlicense Hdeps Htool Hrepo Hbug Hcode p p' Hstep.
  revert Hstep. unfold PHPComposer.field_mappers. simpl for_in. intros Hstep.
  repeat (let q := fresh "q" in
          let Hq := fresh "Hq" in
          apply bind_ok in Hstep; destruct Hstep as [q [Hq Hstep]]).
  inversion Hstep; subst p'.
  pose proof (apply_mapper_preserves proj d _ _
    (fun v => support_mapper_preserves proj v Hbug Hcode) _ _ Hq4).
  pose proof (apply_mapper_preserves proj d _ _
    (fun v => repository_mapper_preserves proj v Htool Hrepo) _ _ Hq3).
  pose proof (apply_mapper_preserves proj d _ _
    (fun v => deps_mapper_preserves proj v "devDependencies" Hdeps) _ _ Hq2).
  pose proof (apply_mapper_preserves proj d _ _
    (fun v => deps_mapper_preserves proj v "dependencies" Hdeps) _ _ Hq1).
  pose proof (apply_mapper_preserves proj d _ _
    (fun v => licensing_mapper_preserves proj v Hlicense) _ _ Hq0).
  pose proof (apply_mapper_preserves proj d _ _
    (fun v => author_mapper_preserves proj v Hparties) _ _ Hq).
  congruence.
Qed.

(** A manifest that is not a mapping makes the first lookup fail, and
    the empty mapping gives the package of the class with its location. *)
Theorem build_package_needs_a_mapping (package_data base : value) :
  match package_data with
  | VDict [] =>
      build_package package_data base
      = Ok (Package.set_location base PHPComposer.PHPComposerPackage)
  | VDict _ => True
  | _ => build_package package_data base = Raise (AttributeError "get")
  end.
Proof.
  destruct package_data as [| | | | |d]; try reflexivity.
  destruct d; [reflexivity | exact I].
Qed.

(** The plain fields of a parsed package: each holds the manifest value
    of its key, stripped when it is a text, if that is truthy, and its
    default otherwise; [description] goes to [summary], and the location
    is the base directory. *)
Theorem build_package_plain_fields (d : list (string * value))
  (base : value) (p : Package.t) :
  build_package (VDict d) base = Ok p ->
  let field (key : string) (default : value) :=
    let v := PHPComposer.strip_if_basestring (dict_get d key) in
    if truthy v then v else default in
  Package.summary p = field "description" VNone
  /\ Package.description p = VNone
  /\ Package.keywords p = field "keywords" (VList [])
  /\ Package.version p = field "version" VNone
  /\ Package.homepage_url p = field "homepage" VNone
  /\ Package.location p = base.
Proof.
  rewrite build_package_eq. intros H.
  apply (mappers_preserve
           (fun p => (Package.summary p, Package.description p,
                      Package.keywords p, Package.version p,
                      Package.homepage_url p, Package.location p)))
    in H; try reflexivity.
  assert (Hplain : forall q,
    let get (key : string) (default : value) :=
      match effective d key with Some v => v | None => default end in
    (Package.summary (after_plain_fields d q),
     Package.description (after_plain_fields d q),
     Package.keywords (after_plain_fields d q),
     Package.version (after_plain_fields d q),
     Package.homepage_url (after_plain_fields d q),
     Package.location (after_plain_fields d q))
    = (get "description" (Package.summary q), Package.description q,
       get "keywords" (Package.keywords q), get "version" (Package.version q),
       get "homepage" (Package.homepage_url q), Package.location q)).
  { intros q. unfold after_plain_fields. simpl.
    destruct (effective d "homepage"), (effective d "version"),
      (effective d "keywords"), (effective d "description"),
      (effective d "name"); reflexivity. }
  rewrite Hplain in H. cbv zeta in H |- *. rewrite !effective_eq in H.
  cbv zeta in H. simpl in H. injection H as H1 H2 H3 H4 H5 H6.
  rewrite H1, H2, H3, H4, H5, H6.
  destruct (truthy (PHPComposer.strip_if_basestring (dict_get d "homepage"))),
    (truthy (PHPComposer.strip_if_basestring (dict_get d "version"))),
    (truthy (PHPComposer.strip_if_basestring (dict_get d "keywords"))),
    (truthy (PHPComposer.strip_if_basestring (dict_get d "description")));
    repeat split.
Qed.


(** A manifest whose name is a number other than zero, or [true], is
    never parsed: the vendor step tests ['/' in name]. *)
Theorem numeric_name_is_never_parsed (d : list (string * value))
  (base : value) :
  match dict_get d "name" with
  | VInt 0 | VBool false => True
  | VInt _ | VBool true =>
      forall p, build_package (VDict d) base <> Ok p
  | _ => True
  end.
Proof.
  assert (Hnum : forall v,
            dict_get d "name" = v -> truthy v = true ->
            (forall s, v <> VStr s) ->
            PHPComposer.slash_in v = Raise TypeError ->
            forall p, build_package (VDict d) base <> Ok p).
  { intros v Hd Htruthy Htext Hslash p H.
    rewrite build_package_eq in H. bind_inv H.
    apply (mapper_loop_preserves Package.name) in Hstep; try reflexivity.
    assert (Hname : Package.name p0 = v).
    { rewrite Hstep. unfold after_plain_fields. simpl.
      assert (He : effective d "name" = Some v).
      { rewrite effective_eq, Hd. cbv zeta.
        destruct v as [| | |s| |]; simpl in *; try discriminate;
          try (exfalso; eapply Htext; reflexivity);
          rewrite Htruthy; reflexivity. }
      rewrite He.
      destruct (effective d "homepage"), (effective d "version"),
        (effective d "keywords"), (effective d "description"); reflexivity. }
    unfold PHPComposer.vendor_mapper in H.
    rewrite Hname, Htruthy, Hslash in H. discriminate H. }
  destruct (dict_get d "name") as [|b|z| | |] eqn:Hd; try exact I.
  - destruct b; [|exact I].
    apply (Hnum (VBool true)); try reflexivity. intros s; discriminate.
  - destruct z; [exact I| |];
      (eapply Hnum; [reflexivity | reflexivity | intros s; discriminate
                    | reflexivity]).
Qed.

(** *** Vendor *)









(** *** License lists *)

(** The entries of a license list: when every entry is a text or falsy,
    the list is accepted and no entry that is kept is empty; when some
    entry is truthy and not a text, building the entries raises
    [AttributeError] for [strip]. *)
Theorem license_entries_outcome (licenses : list value) :
  (Forall (fun l => text_or_falsy l = true) licenses ->
   exists lics,
     PHPComposer.license_entries licenses = Ok lics
     /\ Forall (fun s => s <> "") lics)
  /\ (Exists (fun l => text_or_falsy l = false) licenses ->
      PHPComposer.license_entries licenses = Raise (AttributeError "strip")).
Proof.
  induction licenses as [|l rest [IHok IHbad]]; split.
  - intros _. exists []. split; [reflexivity | constructor].
  - intros H. inversion H.
  - intros H. inversion H as [|? ? Hl Hrest]; subst.
    destruct (IHok Hrest) as [lics [Hlics Hne]].
    simpl. rewrite Hlics.
    destruct l as [|b|z|s|x|m]; unfold text_or_falsy in Hl; simpl in Hl |- *;
      try (rewrite negb_true_iff in Hl; rewrite Hl; simpl);
      try (exists lics; split; [reflexivity | exact Hne]).
    destruct (s =? "") eqn:Es; simpl;
      [exists lics; split; [reflexivity | exact Hne]|].
    destruct (Text.strip s =? "") eqn:Et; simpl;
      [exists lics; split; [reflexivity | exact Hne]|].
    exists (Text.strip s :: lics). split; [reflexivity|].
    constructor; [|exact Hne].
    intros E. rewrite E in Et. discriminate.
  - intros H. simpl.
    destruct (text_or_falsy l) eqn:Hl.
    + assert (Hrest : Exists (fun l => text_or_falsy l = false) rest).
      { inversion H; subst; [congruence | assumption]. }
      rewrite (IHbad Hrest).
      destruct l as [|b|z|s|x|m]; unfold text_or_falsy in Hl; simpl in Hl |- *;
        try (rewrite negb_true_iff in Hl; rewrite Hl; simpl);
        try reflexivity.
      destruct (s =? ""); simpl; [reflexivity|].
      destruct (Text.strip s =? ""); reflexivity.
    + destruct l as [|b|z|s|x|m]; unfold text_or_falsy in Hl; simpl in Hl |- *;
        try (rewrite negb_false_iff in Hl; rewrite Hl; simpl);
        try reflexivity; try discriminate.
Qed.

(** A license list that is not empty and holds only blank texts and
    falsy entries is recorded as the empty text, not left unset. *)
Theorem blank_license_list_gives_empty_text (licenses : list value)
  (p : Package.t) :
  licenses <> [] ->
  Forall (fun l => truthy l = false
                   \/ exists s, l = VStr s /\ Text.strip s = "") licenses ->
  licensing_mapper (VList licenses) p
  = Ok (Package.set_asserted_license (VStr "") p).
Proof.
  intros Hne Hblank.
  assert (Hentries : PHPComposer.license_entries licenses = Ok []).
  { clear Hne. induction Hblank as [|l rest Hl _ IH]; [reflexivity|].
    simpl. destruct Hl as [Hl | [s [-> Hs]]].
    - rewrite Hl. simpl. exact IH.
    - simpl. rewrite Hs. destruct (s =? ""); simpl; exact IH. }
  unfold PHPComposer.licensing_mapper.
  destruct licenses as [|l rest]; [congruence|].
  cbn [truthy negb is_list]. rewrite Hentries. reflexivity.
Qed.

(** *** The steps of a successful parse *)

Lemma build_package_steps (d : list (string * value)) (base : value)
  (p : Package.t) :
  build_package (VDict d) base = Ok p ->
  exists q1 q2 q3 q4 q5 q6,
    apply_mapper d ("authors", PHPComposer.author_mapper)
      (after_plain_fields d
         (Package.set_location base PHPComposer.PHPComposerPackage)) = Ok q1
    /\ apply_mapper d ("license", licensing_mapper) q1 = Ok q2
    /\ apply_mapper d ("require", PHPComposer.dependencies_mapper) q2 = Ok q3
    /\ apply_mapper d ("require-dev", PHPComposer.dev_dependencies_mapper) q3
       = Ok q4
    /\ apply_mapper d ("repositories", repository_mapper) q4 = Ok q5
    /\ apply_mapper d ("support", PHPComposer.support_mapper) q5 = Ok q6
    /\ PHPComposer.vendor_mapper q6 = Ok p.
Proof.
  rewrite build_package_eq. intros H. bind_inv H.
  revert Hstep. unfold PHPComposer.field_mappers. simpl for_in. intros Hstep.
  repeat (let q := fresh "q" in
          let Hq := fresh "Hq" in
          apply bind_ok in Hstep; destruct Hstep as [q [Hq Hstep]]).
  inversion Hstep; subst p0.
  exists q, q0, q1, q2, q3, q4. repeat split; assumption.
Qed.

Lemma after_plain_fields_preserves {A : Type} (proj : Package.t -> A)
  (d : list (string * value)) (q : Package.t) :
  (forall x p, proj (Package.set_name x p) = proj p) ->
  (forall x p, proj (Package.set_summary x p) = proj p) ->
  (forall x p, proj (Package.set_keywords x p) = proj p) ->
  (forall x p, proj (Package.set_version x p) = proj p) ->
  (forall x p, proj (Package.set_homepage_url x p) = proj p) ->
  proj (after_plain_fields d q) = proj q.
Proof.
  intros Hn Hs Hk Hv Hh. unfold after_plain_fields. simpl.
  destruct (effective d "homepage"), (effective d "version"),
    (effective d "keywords"), (effective d "description"),
    (effective d "name");
    rewrite ?Hh, ?Hv, ?Hk, ?Hs, ?Hn; reflexivity.
Qed.

Lemma apply_mapper_some (d : list (string * value)) (key : string)
  (func : value -> Package.t -> result Package.t) (p : Package.t) :
  apply_mapper d (key, func) p
  = let v := PHPComposer.strip_if_basestring (dict_get d key) in
    if truthy v then func v p else Ok p.
Proof.
  unfold apply_mapper. simpl. rewrite effective_eq. cbv zeta.
  destruct (truthy (PHPComposer.strip_if_basestring (dict_get d key)));
    reflexivity.
Qed.

Lemma deps_mapper_ok_mapping (v : value) (p p' : Package.t)
  (field_name : string) :
  PHPComposer.deps_mapper v p field_name = Ok p' -> is_mapping v = true.
Proof.
  unfold PHPComposer.deps_mapper.
  destruct (assoc field_name PHPComposer.dep_types); [|discriminate].
  destruct v; simpl; try discriminate. reflexivity.
Qed.

Lemma support_mapper_ok_mapping (v : value) (p p' : Package.t) :
  PHPComposer.support_mapper v p = Ok p' -> is_mapping v = true.
Proof.
  unfold PHPComposer.support_mapper.
  destruct v; simpl; try discriminate. reflexivity.
Qed.

Lemma person_tuple_ok_mapping (person : value)
  (t : value * value * value * value) :
  PHPComposer.person_tuple person = Ok t -> is_mapping person = true.
Proof.
  unfold PHPComposer.person_tuple.
  destruct person; simpl; try discriminate. reflexivity.
Qed.

Lemma author_mapper_ok_list (v : value) (p p' : Package.t) :
  PHPComposer.author_mapper v p = Ok p' ->
  exists l, v = VList l /\ Forall (fun x => is_mapping x = true) l.
Proof.
  unfold PHPComposer.author_mapper.
  destruct v as [| | | |l|]; simpl; try discriminate.
  intros H. exists l. split; [reflexivity|].
  revert p H. induction l as [|x l IH]; intros p H; [constructor|].
  simpl in H. bind_inv H. bind_inv H.
  constructor; [eapply person_tuple_ok_mapping; eassumption|].
  eapply IH; eassumption.
Qed.

Lemma repository_loop_ok_mappings (l : list value) (p p' : Package.t) :
  for_in l repository_step p = Ok p' ->
  Forall (fun x => is_mapping x = true) l.
Proof.
  revert p. induction l as [|x l IH]; intros p H; [constructor|].
  simpl in H. bind_inv H. constructor; [|eapply IH; eassumption].
  unfold PHPComposer.repository_step in Hstep.
  destruct x; simpl in Hstep; try discriminate. reflexivity.
Qed.

(** A manifest that is parsed has structured fields of the expected
    shapes: each of them is falsy (after stripping a text) or, for
    [authors], a list of objects, for [require], [require-dev] and
    [support], an object, and a [repositories] list holds objects only. *)
Theorem parsed_manifest_has_expected_shapes (d : list (string * value))
  (base : value) (p : Package.t) :
  build_package (VDict d) base = Ok p ->
  let shape (key : string) (ok : value -> Prop) :=
    let v := PHPComposer.strip_if_basestring (dict_get d key) in
    truthy v = false \/ ok v in
  shape "authors"
    (fun v => exists l,
       v = VList l /\ Forall (fun x => is_mapping x = true) l)
  /\ shape "require" (fun v => is_mapping v = true)
  /\ shape "require-dev" (fun v => is_mapping v = true)
  /\ shape "repositories"
       (fun v => forall l,
          v = VList l -> Forall (fun x => is_mapping x = true) l)
  /\ shape "support" (fun v => is_mapping v = true).
Proof.
  intros H. cbv zeta.
  destruct (build_package_steps d base p H)
    as [q1 [q2 [q3 [q4 [q5 [q6 [H1 [H2 [H3 [H4 [H5 [H6 H7]]]]]]]]]]]].
  rewrite apply_mapper_some in H1, H3, H4, H5, H6. cbv zeta in *.
  repeat split.
  - destruct (truthy (PHPComposer.strip_if_basestring (dict_get d "authors")));
      [right; eapply author_mapper_ok_list; eassumption | now left].
  - destruct (truthy (PHPComposer.strip_if_basestring (dict_get d "require")));
      [right; eapply deps_mapper_ok_mapping; eassumption | now left].
  - destruct (truthy (PHPComposer.strip_if_basestring
                        (dict_get d "require-dev")));
      [right; eapply deps_mapper_ok_mapping; eassumption | now left].
  - destruct (truthy (PHPComposer.strip_if_basestring
                        (dict_get d "repositories"))) eqn:Ht; [|now left].
    right. intros l Hl. rewrite Hl in H5, Ht.
    unfold PHPComposer.repository_mapper in H5. rewrite Ht in H5.
    simpl in H5. eapply repository_loop_ok_mappings; eassumption.
  - destruct (truthy (PHPComposer.strip_if_basestring (dict_get d "support")));
      [right; eapply support_mapper_ok_mapping; eassumption | now left].
Qed.

(** *** Dependencies, repositories and support of a parsed manifest *)


(** The support urls of a parsed package: for a non-empty [support]
    object they are its [issues] and [source] values, or [None] when
    such a value is missing or falsy; without a truthy [support] both
    stay unset. *)
Theorem support_urls_of_parsed_package (d : list (string * value))
  (base : value) (p : Package.t) :
  build_package (VDict d) base = Ok p ->
  (forall m,
     dict_get d "support" = VDict m -> m <> [] ->
     Package.bug_tracking_url p
     = (if truthy (dict_get m "issues") then dict_get m "issues" else VNone)
     /\ Package.code_view_url p
        = (if truthy (dict_get m "source") then dict_get m "source"
           else VNone))
  /\ (truthy (PHPComposer.strip_if_basestring (dict_get d "support")) = false ->
      Package.bug_tracking_url p = VNone /\ Package.code_view_url p = VNone).
Proof.
  intros H.
  destruct (build_package_steps d base p H)
    as [q1 [q2 [q3 [q4 [q5 [q6 [H1 [H2 [H3 [H4 [H5 [H6 H7]]]]]]]]]]]].
  pose (urls := fun q => (Package.bug_tracking_url q, Package.code_view_url q)).
  assert (Hp : urls p = urls q6).
  { apply (vendor_mapper_preserves urls (fun _ _ => eq_refl) _ _ H7). }
  assert (Hq5 : urls q5 = (VNone, VNone)).
  { rewrite (apply_mapper_preserves urls d _ _
      (fun v => repository_mapper_preserves urls v
                  (fun _ _ => eq_refl) (fun _ _ => eq_refl)) _ _ H5).
    rewrite (apply_mapper_preserves urls d _ _
      (fun v => deps_mapper_preserves urls v "devDependencies"
                  (fun _ _ => eq_refl)) _ _ H4).
    rewrite (apply_mapper_preserves urls d _ _
      (fun v => deps_mapper_preserves urls v "dependencies"
                  (fun _ _ => eq_refl)) _ _ H3).
    rewrite (apply_mapper_preserves urls d _ _
      (fun v => licensing_mapper_preserves urls v
                  (fun _ _ => eq_refl)) _ _ H2).
    rewrite (apply_mapper_preserves urls d _ _
      (fun v => author_mapper_preserves urls v (fun _ _ => eq_refl)) _ _ H1).
    now rewrite after_plain_fields_preserves. }
  rewrite apply_mapper_some in H6. cbv zeta in H6.
  unfold urls in Hp, Hq5. split.
  - intros m Hd Hne. rewrite Hd in H6.
    assert (Ht : truthy (VDict m) = true)
      by (destruct m; [congruence | reflexivity]).
    simpl PHPComposer.strip_if_basestring in H6. rewrite Ht in H6.
    unfold PHPComposer.support_mapper in H6. simpl py_get in H6.
    cbn [bind] in H6. inversion H6; subst q6. simpl in Hp.
    unfold py_or in Hp. inversion Hp. split; reflexivity.
  - intros Hfalsy. rewrite Hfalsy in H6. inversion H6; subst q6.
    rewrite Hq5 in Hp. inversion Hp. split; reflexivity.
Qed.

(** *** Repositories that are not a list, and the stored tool *)

Lemma vcs_tool_of_range (u : string) :
  In (VStr (PHPComposer.vcs_tool_of u)) composer_vcs_tools.
Proof.
  unfold PHPComposer.vcs_tool_of, composer_vcs_tools.
  destruct (Text.startswith u "svn" || Text.contains "subversion.apache.org" u);
    [simpl; tauto|].
  destruct (Text.startswith u "hg" || Text.contains "mercurial.selenic.com" u);
    [simpl; tauto|].
  destruct (Text.startswith u "fossil" || Text.contains "fossil-scm.org" u);
    simpl; tauto.
Qed.

Lemma repository_mapper_tool (v : value) (p p' : Package.t) :
  repository_mapper v p = Ok p' ->
  (Package.vcs_tool p' = Package.vcs_tool p
   \/ In (Package.vcs_tool p') composer_vcs_tools)
  /\ (is_list v = false -> Package.vcs_tool p' = Package.vcs_tool p).
Proof.
  unfold PHPComposer.repository_mapper. intros H.
  destruct (negb (truthy v)); [inversion H; subst; split; auto|].
  destruct v as [| | |s|l|]; simpl in H;
    try (inversion H; subst; split; auto; fail).
  split; [|discriminate].
  revert p H. induction l as [|repo l IH]; intros p H; simpl in H.
  - inversion H; subst. now left.
  - bind_inv H. destruct (IH _ H) as [Hsame | Hin]; [|now right].
    rewrite Hsame. unfold PHPComposer.repository_step in Hstep.
    bind_inv Hstep. destruct (eq_text p1 "vcs");
      [|inversion Hstep; subst; now left].
    bind_inv Hstep. destruct p2; try discriminate.
    bind_inv Hstep. inversion Hstep; subst. right. apply vcs_tool_of_range.
Qed.

(** The tool of a parsed package is unset or one of svn, hg, fossil and
    git, and it is unset whenever [repositories] is not a list. *)
Theorem vcs_tool_of_parsed_package (d : list (string * value))
  (base : value) (p : Package.t) :
  build_package (VDict d) base = Ok p ->
  (Package.vcs_tool p = VNone
   \/ In (Package.vcs_tool p) [VStr "svn"; VStr "hg"; VStr "fossil"; VStr "git"])
  /\ (is_list (dict_get d "repositories") = false ->
      Package.vcs_tool p = VNone).
Proof.
  intros H.
  destruct (build_package_steps d base p H)
    as [q1 [q2 [q3 [q4 [q5 [q6 [H1 [H2 [H3 [H4 [H5 [H6 H7]]]]]]]]]]]].
  rewrite (vendor_mapper_preserves Package.vcs_tool (fun _ _ => eq_refl)
             _ _ H7).
  rewrite (apply_mapper_preserves Package.vcs_tool d _ _
    (fun v => support_mapper_preserves Package.vcs_tool v
                (fun _ _ => eq_refl) (fun _ _ => eq_refl)) _ _ H6).
  assert (Hq4 : Package.vcs_tool q4 = VNone).
  { rewrite (apply_mapper_preserves Package.vcs_tool d _ _
      (fun v => deps_mapper_preserves Package.vcs_tool v "devDependencies"
                  (fun _ _ => eq_refl)) _ _ H4).
    rewrite (apply_mapper_preserves Package.vcs_tool d _ _
      (fun v => deps_mapper_preserves Package.vcs_tool v "dependencies"
                  (fun _ _ => eq_refl)) _ _ H3).
    rewrite (apply_mapper_preserves Package.vcs_tool d _ _
      (fun v => licensing_mapper_preserves Package.vcs_tool v
                  (fun _ _ => eq_refl)) _ _ H2).
    rewrite (apply_mapper_preserves Package.vcs_tool d _ _
      (fun v => author_mapper_preserves Package.vcs_tool v
                  (fun _ _ => eq_refl)) _ _ H1).
    now rewrite after_plain_fields_preserves. }
  rewrite apply_mapper_some in H5. cbv zeta in H5.
  destruct (truthy (PHPComposer.strip_if_basestring
                      (dict_get d "repositories"))).
  - destruct (repository_mapper_tool _ _ _ H5) as [Hrange Hother].
    rewrite Hq4 in Hrange, Hother. split; [exact Hrange|].
    intros Hlist. apply Hother.
    destruct (dict_get d "repositories"); try reflexivity. discriminate.
  - inversion H5; subst. split; [now left | intros _; exact Hq4].
Qed.

(** A [repositories] value that is a text which is not blank is recorded,
    stripped and normalised, as the repository, and a truthy value that
    is neither a text nor a list (an object of named repositories, a
    number) is ignored. *)
Theorem repositories_that_are_not_a_list (d : list (string * value))
  (base : value) (p : Package.t) :
  build_package (VDict d) base = Ok p ->
  match dict_get d "repositories" with
  | VStr s =>
      Package.vcs_repository p
      = if Text.strip s =? "" then VNone
        else parse_repo_url (VStr (Text.strip s))
  | VList _ => True
  | _ => Package.vcs_repository p = VNone
  end.
Proof.
  intros H.
  destruct (build_package_steps d base p H)
    as [q1 [q2 [q3 [q4 [q5 [q6 [H1 [H2 [H3 [H4 [H5 [H6 H7]]]]]]]]]]]].
  rewrite (vendor_mapper_preserves Package.vcs_repository (fun _ _ => eq_refl)
             _ _ H7).
  rewrite (apply_mapper_preserves Package.vcs_repository d _ _
    (fun v => support_mapper_preserves Package.vcs_repository v
                (fun _ _ => eq_refl) (fun _ _ => eq_refl)) _ _ H6).
  assert (Hq4 : Package.vcs_repository q4 = VNone).
  { rewrite (apply_mapper_preserves Package.vcs_repository d _ _
      (fun v => deps_mapper_preserves Package.vcs_repository v
                  "devDependencies" (fun _ _ => eq_refl)) _ _ H4).
    rewrite (apply_mapper_preserves Package.vcs_repository d _ _
      (fun v => deps_mapper_preserves Package.vcs_repository v
                  "dependencies" (fun _ _ => eq_refl)) _ _ H3).
    rewrite (apply_mapper_preserves Package.vcs_repository d _ _
      (fun v => licensing_mapper_preserves Package.vcs_repository v
                  (fun _ _ => eq_refl)) _ _ H2).
    rewrite (apply_mapper_preserves Package.vcs_repository d _ _
      (fun v => author_mapper_preserves Package.vcs_repository v
                  (fun _ _ => eq_refl)) _ _ H1).
    now rewrite after_plain_fields_preserves. }
  rewrite apply_mapper_some in H5. cbv zeta in H5.
  destruct (dict_get d "repositories") as [|b|z|s|l|m]; try exact I;
    simpl in H5.
  - inversion H5; subst. exact Hq4.
  - destruct b; simpl in H5; inversion H5; subst; exact Hq4.
  - destruct (negb (z =? 0)%Z) eqn:Ez; simpl in H5.
    + unfold PHPComposer.repository_mapper in H5. simpl in H5.
      rewrite Ez in H5. simpl in H5. inversion H5; subst. exact Hq4.
    + inversion H5; subst. exact Hq4.
  - destruct (Text.strip s =? "") eqn:Es; simpl in H5.
    + inversion H5; subst. exact Hq4.
    + unfold PHPComposer.repository_mapper in H5. simpl in H5.
      rewrite Es in H5. simpl in H5. inversion H5; subst. reflexivity.
  - destruct m; simpl in H5; inversion H5; subst; exact Hq4.
Qed.

(** *** Authors that are not well formed *)





(** *** What the parser reads *)

(** The parser reads the manifest through its eleven keys only: two
    manifests that agree on them, whatever else they hold and in
    whatever order, are parsed alike. *)
Theorem build_package_reads_its_keys_only (d d' : list (string * value))
  (base : value) :
  (forall key, In key composer_keys -> dict_get d key = dict_get d' key) ->
  map fst (PHPComposer.field_mappers parse_repo_url py_repr)
  = ["authors"; "license"; "require"; "require-dev"; "repositories"; "support"]
  /\ build_package (VDict d) base = build_package (VDict d') base.
Proof.
  intros Hkeys. split; [reflexivity|].
  assert (Heff : forall key, In key composer_keys ->
                             effective d key = effective d' key).
  { intros key Hin. unfold effective. now rewrite (Hkeys key Hin). }
  rewrite !build_package_eq.
  assert (Hplain : forall q, after_plain_fields d q = after_plain_fields d' q).
  { intros q. unfold after_plain_fields. simpl.
    rewrite !(Heff "name"), !(Heff "description"), !(Heff "keywords"),
      !(Heff "version"), !(Heff "homepage");
      try (unfold composer_keys; simpl; tauto).
    all: reflexivity. }
  rewrite Hplain.
  assert (Hloop : forall q,
    for_in (PHPComposer.field_mappers parse_repo_url py_repr)
      (apply_mapper d) q
    = for_in (PHPComposer.field_mappers parse_repo_url py_repr)
        (apply_mapper d') q).
  { intros q. unfold PHPComposer.field_mappers, apply_mapper. simpl.
    rewrite !(Heff "authors"), !(Heff "license"), !(Heff "require"),
      !(Heff "require-dev"), !(Heff "repositories"), !(Heff "support");
      try (unfold composer_keys; simpl; tauto).
    all: reflexivity. }
  now rewrite Hloop.
Qed.

End ComposerProperties.

(** ** The parser on sample manifests *)

(** C1 as stated fails: a license text with surrounding whitespace is
    not recorded verbatim. *)
Lemma license_text_is_not_kept_verbatim :
  ~ (forall (parse_repo_url : value -> value) (py_repr : value -> string)
       (d : list (string * value)) (base : value) (p : Package.t)
       (s : string),
       PHPComposer.build_package parse_repo_url py_repr (VDict d) base = Ok p ->
       dict_get d "license" = VStr s ->
       s <> "" ->
       Package.asserted_license p = VStr s).
Proof.
  intros H.
  specialize (H sample_parse_repo_url sample_repr
                [("license", VStr " MIT ")] VNone _ " MIT " eq_refl eq_refl).
  assert (Hne : " MIT " <> "") by discriminate.
  specialize (H Hne). vm_compute in H. discriminate H.
Qed.

Lemma license_is_recorded_after_stripping_witness :
  let d := [("license", VList [VStr " MIT "; VStr ""; VStr "Apache-2.0"])] in
  exists p,
    PHPComposer.build_package sample_parse_repo_url sample_repr (VDict d) VNone
    = Ok p
    /\ Package.asserted_license p = VStr "MIT OR Apache-2.0".
Proof.
  eexists. split; [reflexivity|].
  apply (proj2 (license_is_recorded_after_stripping
                  sample_parse_repo_url sample_repr
                  [("license", VList [VStr " MIT "; VStr ""; VStr "Apache-2.0"])]
                  VNone _ eq_refl)
           [" MIT "; ""; "Apache-2.0"]); [reflexivity | discriminate].
Defined.




(** [Package.recognize] too returns a package without type and name. *)
Lemma recognize_returns_unnamed_package :
  Package.type (Package.recognize Package.empty VNone) = VNone
  /\ Package.name (Package.recognize Package.empty VNone) = VNone.
Proof. split; reflexivity. Qed.




Lemma package_id_text_identifies_witness :
  (Text.mem "|" "phpcomposer" = false /\ Text.mem "|" "acme/widget" = false)
  /\ to_primitive
       (IdValue (identifier
                   (Package.set_version (VStr "1.0")
                      (Package.set_name (VStr "acme/widget")
                         PHPComposer.PHPComposerPackage))))
     = Ok (OtherValue (VStr "phpcomposer|acme/widget|1.0")).
Proof.
  split; [split; reflexivity|].
  exact (proj1 (package_id_text_identifies
                  "phpcomposer" "acme/widget" "1.0"
                  "phpcomposer" "acme/widget" "1.0"
                  eq_refl eq_refl eq_refl eq_refl)).
Defined.


Lemma build_package_plain_fields_witness :
  exists p,
    PHPComposer.build_package sample_parse_repo_url sample_repr
      (VDict [("description", VStr " A widget "); ("version", VStr "1.0");
              ("homepage", VStr "  ")])
      (VStr "/src/widget") = Ok p
    /\ Package.summary p = VStr "A widget"
    /\ Package.description p = VNone
    /\ Package.keywords p = VList []
    /\ Package.version p = VStr "1.0"
    /\ Package.homepage_url p = VNone
    /\ Package.location p = VStr "/src/widget".
Proof.
  eexists. split; [reflexivity|].
  exact (build_package_plain_fields sample_parse_repo_url sample_repr
           [("description", VStr " A widget "); ("version", VStr "1.0");
            ("homepage", VStr "  ")]
           (VStr "/src/widget") _ eq_refl).
Defined.






Lemma license_entries_outcome_witness :
  Exists (fun l => text_or_falsy l = false) [VStr "MIT"; VInt 3]
  /\ PHPComposer.license_entries [VStr "MIT"; VInt 3]
     = Raise (AttributeError "strip").
Proof.
  assert (H : Exists (fun l => text_or_falsy l = false) [VStr "MIT"; VInt 3]).
  { apply Exists_cons_tl. apply Exists_cons_hd. reflexivity. }
  split; [exact H|].
  exact (proj2 (license_entries_outcome [VStr "MIT"; VInt 3]) H).
Defined.

Lemma blank_license_list_gives_empty_text_witness :
  ([VStr "  "; VNone] <> []
   /\ Forall (fun l => truthy l = false
                       \/ exists s, l = VStr s /\ Text.strip s = "")
        [VStr "  "; VNone])
  /\ PHPComposer.licensing_mapper sample_repr (VList [VStr "  "; VNone])
       Package.empty
     = Ok (Package.set_asserted_license (VStr "") Package.empty).
Proof.
  assert (Hne : [VStr "  "; VNone] <> []) by discriminate.
  assert (Hblank : Forall (fun l => truthy l = false
                       \/ exists s, l = VStr s /\ Text.strip s = "")
                     [VStr "  "; VNone]).
  { constructor; [right; exists "  "; split; reflexivity|].
    constructor; [left; reflexivity | constructor]. }
  split; [split; assumption|].
  exact (blank_license_list_gives_empty_text sample_repr _ Package.empty
           Hne Hblank).
Defined.


Lemma parsed_manifest_has_expected_shapes_witness :
  exists p,
    PHPComposer.build_package sample_parse_repo_url sample_repr
      (VDict [("require", VDict [("php", VStr ">=7.0")])]) VNone = Ok p
    /\ is_mapping
         (PHPComposer.strip_if_basestring
            (dict_get [("require", VDict [("php", VStr ">=7.0")])] "require"))
       = true.
Proof.
  eexists. split; [reflexivity|].
  destruct (proj1 (proj2 (parsed_manifest_has_expected_shapes
                            sample_parse_repo_url sample_repr
                            [("require", VDict [("php", VStr ">=7.0")])]
                            VNone _ eq_refl))) as [H | H];
    [discriminate H | exact H].
Defined.



Lemma support_urls_of_parsed_package_witness :
  exists p,
    PHPComposer.build_package sample_parse_repo_url sample_repr
      (VDict [("support", VDict [("issues", VStr "https://example.org/bugs");
                                 ("source", VStr "")])])
      VNone = Ok p
    /\ Package.bug_tracking_url p = VStr "https://example.org/bugs"
    /\ Package.code_view_url p = VNone.
Proof.
  eexists. split; [reflexivity|].
  apply (proj1 (support_urls_of_parsed_package sample_parse_repo_url
                  sample_repr
                  [("support", VDict [("issues", VStr "https://example.org/bugs");
                                      ("source", VStr "")])]
                  VNone _ eq_refl)
           [("issues", VStr "https://example.org/bugs"); ("source", VStr "")]);
    [reflexivity | discriminate].
Defined.


Lemma vcs_tool_of_parsed_package_witness :
  exists p,
    PHPComposer.build_package sample_parse_repo_url sample_repr
      (VDict [("repositories",
               VList [VDict [("type", VStr "vcs");
                             ("url", VStr "hg://example.org/repo")]])])
      VNone = Ok p
    /\ (Package.vcs_tool p = VNone
        \/ In (Package.vcs_tool p)
             [VStr "svn"; VStr "hg"; VStr "fossil"; VStr "git"]).
Proof.
  eexists. split; [reflexivity|].
  exact (proj1 (vcs_tool_of_parsed_package sample_parse_repo_url sample_repr
                  [("repositories",
                    VList [VDict [("type", VStr "vcs");
                                  ("url", VStr "hg://example.org/repo")]])]
                  VNone _ eq_refl)).
Defined.

Lemma repositories_that_are_not_a_list_witness :
  exists p,
    PHPComposer.build_package sample_parse_repo_url sample_repr
      (VDict [("repositories", VStr " https://example.org/repo.git ")])
      VNone = Ok p
    /\ Package.vcs_repository p = VStr "https://example.org/repo.git".
Proof.
  eexists. split; [reflexivity|].
  exact (repositories_that_are_not_a_list sample_parse_repo_url sample_repr
           [("repositories", VStr " https://example.org/repo.git ")]
           VNone _ eq_refl).
Defined.




Lemma build_package_reads_its_keys_only_witness :
  PHPComposer.build_package sample_parse_repo_url sample_repr
    (VDict [("type", VStr "library"); ("name", VStr "acme/widget")]) VNone
  = PHPComposer.build_package sample_parse_repo_url sample_repr
      (VDict [("name", VStr "acme/widget"); ("minimum-stability", VStr "dev")])
      VNone.
Proof.
  apply (build_package_reads_its_keys_only sample_parse_repo_url sample_repr
           [("type", VStr "library"); ("name", VStr "acme/widget")]
           [("name", VStr "acme/widget"); ("minimum-stability", VStr "dev")]
           VNone).
  intros key Hin. unfold composer_keys in Hin. simpl in Hin.
  repeat (destruct Hin as [<- | Hin]; [reflexivity|]). destruct Hin.
Defined.
